(** * Sentiment-classification notebook (RNN_LSTM.ipynb): embedding and properties

    The notebook is a straight-line script over a deep-learning framework.
    Its own logic is the constants of cell 7, the [decode] helper of cell 33
    and the order and arguments of the framework calls.  The embedding keeps
    that shape: Python values and built-ins first, then the framework
    interface (calls are events answered from outside), then the cells. *)

From Stdlib Require Import ZArith String List Lia PrimFloat FloatOps.
From stdpp Require Import gmap strings list fin_maps sorting.

(** ** Python and numpy values *)

Module Py.

(** Exceptions the script can meet: the two raised by the built-ins modelled
    below, and whatever a framework call raises, kept by its class name. *)
Inductive exn :=
| IndexError
| ValueError
| FrameworkError (name : string).

Inductive result (A : Type) :=
| Ok (a : A)
| Raise (e : exn).
Arguments Ok {A} a.
Arguments Raise {A} e.

(** [a[k]] on a list or on the first axis of an array: an index in
    [-len, len) selects an element, counting from the end when negative;
    any other index raises IndexError. *)
Definition getitem {A} (a : list A) (k : Z) : result A :=
  let n := Z.of_nat (length a) in
  let pos := (if k <? 0 then n + k else k)%Z in
  if ((0 <=? pos) && (pos <? n))%Z
  then match a !! Z.to_nat pos with
       | Some x => Ok x
       | None => Raise IndexError
       end
  else Raise IndexError.

(** [dict(pairs)]: pairs are inserted in order, a later pair replaces an
    earlier one with the same key. *)
Definition dict {K V} `{Countable K} (pairs : list (K * V)) : gmap K V :=
  fold_left (λ m kv, <[kv.1 := kv.2]> m) pairs ∅.

(** [d.get(k, dflt)] *)
Definition dict_get {K V} `{Countable K} (d : gmap K V) (k : K) (dflt : V) : V :=
  match d !! k with
  | Some v => v
  | None => dflt
  end.

(** [sep.join(words)] *)
Definition join (sep : string) (words : list string) : string :=
  String.concat sep words.

(** [np.unique(a)]: the sorted distinct elements. *)
Definition np_unique (a : list Z) : list Z :=
  merge_sort Z.le (remove_dups a).

(** [np.hstack(seqs)] on a sequence of one-dimensional sequences: their
    concatenation; an empty sequence of arrays is rejected. *)
Definition np_hstack (seqs : list (list Z)) : result (list Z) :=
  match seqs with
  | [] => Raise ValueError
  | _ => Ok (concat seqs)
  end.

(** Storing a float in an integer array cuts the fraction off.  An infinity
    or a NaN has no integer value; 0 stands for it here. *)
Definition int_of_float (f : float) : Z :=
  match Prim2SF f with
  | SpecFloat.S754_finite s m e =>
      let a := match e with
               | Z0 => Zpos m
               | Zpos p => Z.shiftl (Zpos m) (Zpos p)
               | Zneg p => Z.shiftr (Zpos m) (Zpos p)
               end in
      if s then (- a)%Z else a
  | _ => 0%Z
  end.

(** [s * n] on a string *)
Fixpoint str_mul (s : string) (n : nat) : string :=
  match n with
  | O => EmptyString
  | S n' => s +:+ str_mul s n'
  end.

(** The one-character string written ['\n'] in Python. *)
Definition newline : string := String (Ascii.ascii_of_nat 10) EmptyString.

(** What a [print] call is handed: the values, before the console formats
    them.  [PFormat fmt x] is the string [fmt % x]; [PFstring parts] is an
    f-string, its literal and interpolated parts in order. *)
Inductive fpart :=
| FLit (s : string)
| FArr (a : list (list float)).

Inductive pyval :=
| PNone
| PStr (s : string)
| PInt (n : Z)
| PInts (l : list Z)
| PFormat (fmt : string) (x : float)
| PFstring (parts : list fpart).

End Py.
Export Py.

(** ** The framework's interface *)

Module Keras.

(** Layers, with the arguments the notebook passes; a keyword the call
    leaves out is [None] (or [false] for [mask_zero], its default). *)
Inductive layer :=
| Embedding (input_dim output_dim : Z) (input_length : option Z) (mask_zero : bool)
| Flatten
| Dense (units : Z) (activation : option string)
| SimpleRNN (units : Z)
| LSTM (units : Z)
| Bidirectional (inner : layer).

Record compile_args := {
  loss : string;
  optimizer : string;
  metrics : list string
}.

(** A [Sequential] object: its stack of layers and how it was compiled, if
    it was.  Weights stay inside the framework. *)
Record Sequential := {
  layers : list layer;
  compiled : option compile_args
}.

(** [Sequential()] and [Sequential([l1; ...])] *)
Definition Sequential_new (ls : list layer) : Sequential :=
  {| layers := ls; compiled := None |}.

(** [m.add(l)] *)
Definition add (l : layer) (m : Sequential) : Sequential :=
  {| layers := layers m ++ [l]; compiled := compiled m |}.

(** [m.compile(loss=..., optimizer=..., metrics=...)] *)
Definition compile (loss optimizer : string) (metrics : list string)
    (m : Sequential) : Sequential :=
  {| layers := layers m;
     compiled := Some {| loss := loss; optimizer := optimizer; metrics := metrics |} |}.

(** Modelled from the spec: the sentinel [sequence.pad_sequences] pads with
    when the call gives no [value].  The padder is framework code, not in the
    repository, and the spec only says "a sentinel value"; the framework's
    documented signature is [pad_sequences(sequences, maxlen, dtype='int32',
    padding='pre', truncating='pre', value=0.)]. *)
Definition default_value : float := 0%float.

(** Modelled from the spec: [sequence.pad_sequences], the framework's
    sequence padder, whose code is not in the repository.  The spec (data
    model, "Padded batch"): every sequence becomes an integer sequence of the
    fixed length, left-padded with a sentinel value when shorter, truncated
    when longer.  The sentinel is stored as an integer.  Which end is cut is
    left open by the spec; the framework's default drops tokens from the
    front, and the recorded output of cell 34 agrees (the review longer than
    500 tokens is printed from mid-sentence to its last word). *)
Definition pad_sequences (sequences : list (list Z)) (maxlen : Z)
    (value : option float) : list (list Z) :=
  let fill := int_of_float (default default_value value) in
  (λ s, let trunc := drop (length s - Z.to_nat maxlen) s in
        replicate (Z.to_nat maxlen - length trunc) fill ++ trunc) <$> sequences.

End Keras.
Export Keras.

(** ** The script as a run against the framework *)

Module Run.

(** What the script does that is visible from outside: calls into numpy and
    the framework with the arguments actually passed, and console output. *)
Inductive event :=
| np_random_seed (seed : Z)
| imdb_load_data (kwargs : list (string * Z))
| imdb_get_word_index
| summary (m : Sequential)
| fit (m : Sequential) (x : list (list Z)) (y : list Z)
      (validation_data : list (list Z) * list Z)
      (epochs batch_size : Z) (verbose : option Z)
| evaluate (m : Sequential) (x : list (list Z)) (y : list Z) (verbose : Z)
| predict (m : Sequential) (x : list (list Z))
| print (args : list pyval).

(** [((X_train, y_train), (X_test, y_test))] *)
Definition dataset : Type :=
  (list (list Z) * list Z) * (list (list Z) * list Z).

(** The framework's side of each call: a value or an exception, which may
    depend on everything that happened so far (the trace ends with the call
    being answered). *)
Record framework := {
  load_data_returns : list event → result dataset;
  get_word_index_returns : list event → result (list (string * Z));
  summary_returns : list event → result unit;
  fit_returns : list event → result unit;
  evaluate_returns : list event → result (list float);
  predict_returns : list event → result (list (list float))
}.

(** A computation extends the trace and ends in a value or an exception.
    The script has no [try]: the only way to continue after a call is [bind],
    which stops at the first exception. *)
Definition NB (A : Type) : Type := list event → list event * result A.

Definition ret {A} (a : A) : NB A := λ tr, (tr, Ok a).

Definition bind {A B} (c : NB A) (k : A → NB B) : NB B :=
  λ tr, match c tr with
        | (tr', Ok a) => k a tr'
        | (tr', Raise e) => (tr', Raise e)
        end.

Definition lift {A} (r : result A) : NB A := λ tr, (tr, r).

Definition emit (ev : event) : NB unit := λ tr, (tr ++ [ev], Ok tt).

Definition ask {A} (ev : event) (answer : list event → result A) : NB A :=
  λ tr, (tr ++ [ev], answer (tr ++ [ev])).

End Run.
Export Run.

Notation "x <- c1 ;; c2" := (bind c1 (fun x => c2))
  (at level 100, c1 at next level, right associativity).
Notation "c1 ;; c2" := (bind c1 (fun _ => c2))
  (at level 100, right associativity).

(** ** The notebook, cell by cell *)

Module Notebook.

Local Open Scope Z_scope.

(** *** Cell 7: parameters *)

(* take the 10000 most common words *)
Definition VOCABULARY_SIZE : Z := 10000.
(* Finite length of the review (avoid long sentences) *)
Definition MAX_REVIEW_LENGTH : Z := 500.
Definition EMBEDDING_DIM : Z := 100.
Definition EPOCHS : Z := 2.
Definition BATCH_SIZE : Z := 128.

(** *** Cells 15, 21, 28 and 40: the models *)

Definition model_fnn : Sequential :=
  compile "binary_crossentropy" "adam" ["accuracy"]
    (add (Dense 1 (Some "sigmoid"))
      (add (Dense 250 (Some "relu"))
        (add Flatten
          (add (Embedding VOCABULARY_SIZE EMBEDDING_DIM (Some MAX_REVIEW_LENGTH) false)
            (Sequential_new []))))).

Definition model_rnn : Sequential :=
  compile "binary_crossentropy" "adam" ["accuracy"]
    (add (Dense 1 (Some "sigmoid"))
      (add (SimpleRNN 100)
        (add (Embedding VOCABULARY_SIZE EMBEDDING_DIM (Some MAX_REVIEW_LENGTH) false)
          (Sequential_new [])))).

Definition model_lstm : Sequential :=
  compile "binary_crossentropy" "adam" ["accuracy"]
    (add (Dense 1 (Some "sigmoid"))
      (add (LSTM 100)
        (add (Embedding VOCABULARY_SIZE EMBEDDING_DIM (Some MAX_REVIEW_LENGTH) false)
          (Sequential_new [])))).

Definition model : Sequential :=
  Sequential_new [Embedding VOCABULARY_SIZE 64 None true;
                  Bidirectional (LSTM 64);
                  Dense 64 (Some "relu");
                  Dense 1 None].

(** Every model the notebook constructs, in the order of the cells. *)
Definition models : list Sequential :=
  [model_fnn; model_rnn; model_lstm; model].

(** *** Cell 33: decode *)

(** [dict([(value, key) for (key, value) in index.items()])]; [index] is
    given by its items, in the dictionary's order. *)
Definition reverse_index (index : list (string * Z)) : gmap Z string :=
  dict ((λ '(key, value), (value, key)) <$> index).

Section Cells.

Variable fw : framework.

(** [X_train] is a global of the script; [decode] reads the value it has
    when called, here an argument. *)
Definition decode (X_train : list (list Z)) (review_index : Z) : NB unit :=
  index <- ask imdb_get_word_index (get_word_index_returns fw) ;;
  let reverse_index := reverse_index index in
  row <- lift (getitem X_train review_index) ;;
  let decoded := join " " ((λ i, dict_get reverse_index (i - 3) "#") <$> row) in
  emit (print [PStr decoded]).

(** *** The other cells *)

(** Cell 5 imports the framework and fixes the random seed; the imports
    bind names and are not part of the run. *)
Definition cell_5 : NB unit :=
  emit (np_random_seed 1).

Definition cell_9 : NB dataset :=
  d <- ask (imdb_load_data [("num_words", VOCABULARY_SIZE)])
           (load_data_returns fw) ;;
  let '((X_train, y_train), (X_test, y_test)) := d in
  emit (print [PStr "Categories:"; PInts (np_unique y_train)]) ;;
  words <- lift (np_hstack X_train) ;;
  emit (print [PStr "Number of unique words:";
               PInt (Z.of_nat (length (np_unique words)))]) ;;
  first <- lift (getitem X_train 0) ;;
  emit (print [PStr "First review"; PInts first]) ;;
  first <- lift (getitem X_train 0) ;;
  fifth <- lift (getitem X_train 4) ;;
  emit (print [PStr "Length of first and fifth review";
               PInt (Z.of_nat (length first)); PInt (Z.of_nat (length fifth))]) ;;
  ret d.

Definition cell_11 (X_train X_test : list (list Z))
    : NB (list (list Z) * list (list Z)) :=
  let X_train := pad_sequences X_train MAX_REVIEW_LENGTH None in
  let X_test := pad_sequences X_test MAX_REVIEW_LENGTH None in
  first <- lift (getitem X_train 0) ;;
  fifth <- lift (getitem X_train 4) ;;
  emit (print [PStr "Length of first and fifth review after padding";
               PInt (Z.of_nat (length first)); PInt (Z.of_nat (length fifth))]) ;;
  ret (X_train, X_test).

(** [print(m.summary())]: the framework prints the table and returns
    nothing, which is then printed. *)
Definition print_summary (m : Sequential) : NB unit :=
  ask (summary m) (summary_returns fw) ;;
  emit (print [PNone]).

(** The statements cells 17, 23 and 28 share: fit, evaluate on the test
    set, print the accuracy. *)
Definition fit_and_evaluate (m : Sequential) (verbose : option Z)
    (X_train : list (list Z)) (y_train : list Z)
    (X_test : list (list Z)) (y_test : list Z) : NB unit :=
  ask (fit m X_train y_train (X_test, y_test) EPOCHS BATCH_SIZE verbose)
      (fit_returns fw) ;;
  scores <- ask (evaluate m X_test y_test 0) (evaluate_returns fw) ;;
  accuracy <- lift (getitem scores 1) ;;
  emit (print [PFormat "Accuracy: %.2f%%" (accuracy * 100)%float]).

Definition cell_15 : NB unit := print_summary model_fnn.

Definition cell_17 (X_train : list (list Z)) (y_train : list Z)
    (X_test : list (list Z)) (y_test : list Z) : NB unit :=
  fit_and_evaluate model_fnn (Some 2) X_train y_train X_test y_test.

Definition cell_21 : NB unit := print_summary model_rnn.

Definition cell_23 (X_train : list (list Z)) (y_train : list Z)
    (X_test : list (list Z)) (y_test : list Z) : NB unit :=
  fit_and_evaluate model_rnn None X_train y_train X_test y_test.

Definition cell_28 (X_train : list (list Z)) (y_train : list Z)
    (X_test : list (list Z)) (y_test : list Z) : NB unit :=
  print_summary model_lstm ;;
  fit_and_evaluate model_lstm None X_train y_train X_test y_test.

Definition cell_34 (X_train : list (list Z)) : NB unit :=
  (* Bad review *)
  decode X_train 7337 ;;
  emit (print [PStr (str_mul newline 3)]) ;;
  (* Good review *)
  decode X_train 449.

Definition cell_35 (X_train : list (list Z)) : NB (list (list Z)) :=
  text_bad <- lift (getitem X_train 7737) ;;
  text_good <- lift (getitem X_train 449) ;;
  let texts := [text_bad; text_good] in
  ret (pad_sequences texts MAX_REVIEW_LENGTH (Some 0.0%float)).

Definition cell_36 (padded_texts : list (list Z)) : NB unit :=
  predictions_fnn <- ask (predict model_fnn padded_texts) (predict_returns fw) ;;
  predictions_rnn <- ask (predict model_rnn padded_texts) (predict_returns fw) ;;
  predictions_lstm <- ask (predict model_lstm padded_texts) (predict_returns fw) ;;
  emit (print [PFstring [FLit "FNNs: "; FArr predictions_fnn;
                         FLit (" " +:+ newline +:+ newline +:+ " Simple RNNs: ");
                         FArr predictions_rnn;
                         FLit (" " +:+ newline +:+ newline +:+ " LSTMs: ");
                         FArr predictions_lstm]]).

(** All cells in order (cell 40 only builds [model], a value). *)
Definition notebook : NB unit :=
  cell_5 ;;
  d <- cell_9 ;;
  let '((X_train, y_train), (X_test, y_test)) := d in
  padded <- cell_11 X_train X_test ;;
  let '(X_train, X_test) := padded in
  cell_15 ;;
  cell_17 X_train y_train X_test y_test ;;
  cell_21 ;;
  cell_23 X_train y_train X_test y_test ;;
  cell_28 X_train y_train X_test y_test ;;
  cell_34 X_train ;;
  padded_texts <- cell_35 X_train ;;
  cell_36 padded_texts.

End Cells.

End Notebook.
Export Notebook.

(** ** What is observed of a run *)

(** [wp c tr Q]: running [c] after the trace [tr] ends in a trace and a
    result that satisfy [Q]. *)
Definition wp {A} (c : NB A) (tr : list event)
    (Q : list event → result A → Prop) : Prop :=
  Q (c tr).1 (c tr).2.

(** The keyword arguments of every [imdb.load_data] call of a trace. *)
Definition load_data_calls (tr : list event) : list (list (string * Z)) :=
  omap (λ ev, match ev with imdb_load_data kwargs => Some kwargs | _ => None end) tr.

(** The model, the training data and the number of epochs of every [fit]
    call of a trace. *)
Definition fit_calls (tr : list event)
    : list (Sequential * (list (list Z) * list Z) * Z) :=
  omap (λ ev, match ev with
              | fit m x y _ epochs _ _ => Some (m, (x, y), epochs)
              | _ => None
              end) tr.

(** The texts printed on their own, as [decode] does, and the batches handed
    to [predict]. *)
Definition printed_texts (tr : list event) : list string :=
  omap (λ ev, match ev with print [PStr s] => Some s | _ => None end) tr.

Definition predict_calls (tr : list event) : list (Sequential * list (list Z)) :=
  omap (λ ev, match ev with predict m x => Some (m, x) | _ => None end) tr.

Definition exn_of {A} (r : result A) : option exn :=
  match r with
  | Ok _ => None
  | Raise e => Some e
  end.

(** The exception, if any, with which the framework answered the call the
    trace ends with. *)
Definition framework_raised (fw : framework) (tr : list event) : option exn :=
  match last tr with
  | Some (imdb_load_data _) => exn_of (load_data_returns fw tr)
  | Some imdb_get_word_index => exn_of (get_word_index_returns fw tr)
  | Some (summary _) => exn_of (summary_returns fw tr)
  | Some (fit _ _ _ _ _ _ _) => exn_of (fit_returns fw tr)
  | Some (evaluate _ _ _ _) => exn_of (evaluate_returns fw tr)
  | Some (predict _ _) => exn_of (predict_returns fw tr)
  | _ => None
  end.

(** The exception of the first of two built-in applications that fails. *)
Definition first_raised {A B} (r1 : result A) (r2 : result B) : option exn :=
  match exn_of r1 with
  | Some e => Some e
  | None => exn_of r2
  end.

(** The training reviews the loader returned to the run of a trace (the
    [load_data] call is the second event). *)
Definition loaded_train (fw : framework) (tr : list event) : list (list Z) :=
  match load_data_returns fw (take 2 tr) with
  | Ok ((X_train, _), _) => X_train
  | Raise _ => []
  end.

(** The exception, if any, of the built-ins the script applies next once its
    trace has reached [tr], by the number of events so far:
    - 3 events (the categories are printed): [np.hstack(X_train)], cell 9;
    - 4 (the number of words is printed): [X_train[0]];
    - 5 (the first review is printed): [X_train[0]], then [X_train[4]];
    - 6 (cell 9 is done): [X_train[0]], then [X_train[4]] of the padded
      training set, cell 11;
    - 11, 16, 21 (an [evaluate] call has returned): [scores[1]], cells 17, 23
      and 28;
    - 23 and 26 (a [decode] call has the word index): [X_train[7337]], then
      [X_train[449]], cell 34;
    - 27 (the good review is printed): [X_train[7737]], then
      [X_train[449]], cell 35.
    Nowhere else does the script index or stack anything. *)
Definition builtin_raised (fw : framework) (tr : list event) : option exn :=
  let X_train := loaded_train fw tr in
  let X := pad_sequences X_train MAX_REVIEW_LENGTH None in
  match length tr with
  | 3 => exn_of (np_hstack X_train)
  | 4 => exn_of (getitem X_train 0)
  | 5 => first_raised (getitem X_train 0) (getitem X_train 4)
  | 6 => first_raised (getitem X 0) (getitem X 4)
  | 11 | 16 | 21 =>
      match evaluate_returns fw tr with
      | Ok scores => exn_of (getitem scores 1)
      | Raise _ => None
      end
  | 23 => exn_of (getitem X 7337)
  | 26 => exn_of (getitem X 449)
  | 27 => first_raised (getitem X 7737) (getitem X 449)
  | _ => None
  end.

(** What fails, if anything, once the trace has reached [tr]: the call the
    trace ends with, or else a built-in applied to its answer or to the
    loaded data. *)
Definition failure (fw : framework) (tr : list event) : option exn :=
  match framework_raised fw tr with
  | Some e => Some e
  | None => builtin_raised fw tr
  end.

(** [P] holds of [before] and of [before] extended by every initial part of
    [after]. *)
Fixpoint all_prefixes (P : list event → Prop) (before after : list event) : Prop :=
  P before ∧ match after with
             | [] => True
             | ev :: after' => all_prefixes P (before ++ [ev]) after'
             end.

(** How cells 15, 21 and 28 compile their model. *)
Definition adam_binary_crossentropy : compile_args :=
  {| loss := "binary_crossentropy"; optimizer := "adam"; metrics := ["accuracy"] |}.

Definition begins_with_embedding (m : Sequential) : Prop :=
  match layers m with
  | Embedding _ _ _ _ :: _ => True
  | _ => False
  end.

Definition ends_with_sigmoid (m : Sequential) : Prop :=
  last (layers m) = Some (Dense 1 (Some "sigmoid")).

(** A framework or numpy call without its data: which function, on which
    model. *)
Inductive call :=
| seed_call
| load_data_call
| get_word_index_call
| summary_call (m : Sequential)
| fit_call (m : Sequential)
| evaluate_call (m : Sequential)
| predict_call (m : Sequential).

Definition call_of (ev : event) : option call :=
  match ev with
  | np_random_seed _ => Some seed_call
  | imdb_load_data _ => Some load_data_call
  | imdb_get_word_index => Some get_word_index_call
  | summary m => Some (summary_call m)
  | fit m _ _ _ _ _ _ => Some (fit_call m)
  | evaluate m _ _ _ => Some (evaluate_call m)
  | predict m _ => Some (predict_call m)
  | print _ => None
  end.

(** The calls of a trace, in order. *)
Definition calls (tr : list event) : list call := omap call_of tr.

(** The calls the cells make when nothing fails, in the order of the cells. *)
Definition script_calls : list call :=
  [seed_call; load_data_call;
   summary_call model_fnn; fit_call model_fnn; evaluate_call model_fnn;
   summary_call model_rnn; fit_call model_rnn; evaluate_call model_rnn;
   summary_call model_lstm; fit_call model_lstm; evaluate_call model_lstm;
   get_word_index_call; get_word_index_call;
   predict_call model_fnn; predict_call model_rnn; predict_call model_lstm].

(** [input_length] and [input_dim] of the embedding a model starts with. *)
Definition input_length_of (m : Sequential) : option Z :=
  match layers m with
  | Embedding _ _ input_length _ :: _ => input_length
  | _ => None
  end.

Definition input_dim_of (m : Sequential) : option Z :=
  match layers m with
  | Embedding input_dim _ _ _ :: _ => Some input_dim
  | _ => None
  end.

(** Every row of a batch has as many tokens as the model's embedding takes. *)
Definition fits_input_length (m : Sequential) (x : list (list Z)) : Prop :=
  ∃ n, input_length_of m = Some n ∧ Forall (λ row, Z.of_nat (length row) = n) x.

(** Every token of a batch is an index of the model's embedding table. *)
Definition fits_input_dim (m : Sequential) (x : list (list Z)) : Prop :=
  ∃ d, input_dim_of m = Some d ∧ Forall (Forall (λ t, 0 <= t < d)%Z) x.

(** A property of every batch of token rows a call hands to its model: the
    training and validation data of [fit], the data of [evaluate] and of
    [predict]. *)
Definition on_batches (P : Sequential → list (list Z) → Prop) (ev : event) : Prop :=
  match ev with
  | fit m x _ (x_val, _) _ _ _ => P m x ∧ P m x_val
  | evaluate m x _ _ => P m x
  | predict m x => P m x
  | _ => True
  end.

(** The data of a [fit] call are the training set with the test set as
    validation data; the data of an [evaluate] call are the test set. *)
Definition uses_train_and_test (X_train : list (list Z)) (y_train : list Z)
    (X_test : list (list Z)) (y_test : list Z) (ev : event) : Prop :=
  match ev with
  | fit _ x y validation_data _ batch_size _ =>
      x = X_train ∧ y = y_train ∧ validation_data = (X_test, y_test)
      ∧ batch_size = BATCH_SIZE
  | evaluate _ x y _ => x = X_test ∧ y = y_test
  | _ => True
  end.

(** A call gets as many labels as rows, for its data and for its validation
    data. *)
Definition rows_match_labels (ev : event) : Prop :=
  match ev with
  | fit _ x y (x_val, y_val) _ _ _ =>
      length x = length y ∧ length x_val = length y_val
  | evaluate _ x y _ => length x = length y
  | _ => True
  end.

(** All tokens of a list of reviews are below the vocabulary cutoff. *)
Definition in_vocabulary (X : list (list Z)) : Prop :=
  Forall (Forall (λ t, 0 <= t < VOCABULARY_SIZE)%Z) X.

(** ** Sample data *)

(** The first entries of the framework's word index. *)
Definition sample_index : list (string * Z) :=
  [("the", 1); ("and", 2); ("a", 3); ("of", 4); ("to", 5)]%Z.

(** The first review of the training set, as cell 9 printed it. *)
Definition first_review : list Z :=
  [1; 14; 22; 16; 43; 530; 973; 1622; 1385; 65; 458; 4468; 66; 3941; 4; 173;
   36; 256; 5; 25; 100; 43; 838; 112; 50; 670; 2; 9; 35; 480; 284; 5; 150; 4;
   172; 112; 167; 2; 336; 385; 39; 4; 172; 4536; 1111; 17; 546; 38; 13; 447; 4;
   192; 50; 16; 6; 147; 2025; 19; 14; 22; 4; 1920; 4613; 469; 4; 22; 71; 87;
   12; 16; 43; 530; 38; 76; 15; 13; 1247; 4; 22; 17; 515; 17; 12; 16; 626; 18;
   2; 5; 62; 386; 12; 8; 316; 8; 106; 5; 4; 2223; 5244; 16; 480; 66; 3785; 33;
   4; 130; 12; 16; 38; 619; 5; 25; 124; 51; 36; 135; 48; 25; 1415; 33; 6; 22;
   12; 215; 28; 77; 52; 5; 14; 407; 16; 82; 2; 8; 4; 107; 117; 5952; 15; 256;
   4; 2; 7; 3766; 5; 723; 36; 71; 43; 530; 476; 26; 400; 317; 46; 7; 4; 2;
   1029; 13; 104; 88; 4; 381; 15; 297; 98; 32; 2071; 56; 26; 141; 6; 194;
   7486; 18; 4; 226; 22; 21; 134; 476; 26; 480; 5; 144; 30; 5535; 18; 51; 36;
   28; 224; 92; 25; 104; 4; 226; 65; 16; 38; 1334; 88; 12; 16; 283; 5; 16;
   4472; 113; 103; 32; 15; 16; 5345; 19; 178; 32]%Z.

(** A training set of 7738 one-word reviews: "the" everywhere, except "and"
    for review 7337 and "a" for review 7737. *)
Definition sample_reviews : list (list Z) :=
  (replicate (Z.to_nat 7337) [4] ++ [[5]] ++ replicate (Z.to_nat 399) [4] ++ [[6]])%Z.

Definition sample_dataset : dataset :=
  ((sample_reviews, replicate (Z.to_nat 7738) 1%Z), ([[4]; [5]]%Z, [1; 0]%Z)).

(** A framework that answers every call, for running the cells on concrete
    data. *)
Definition answering (d : dataset) (index : list (string * Z)) : framework :=
  {| load_data_returns := λ _, Ok d;
     get_word_index_returns := λ _, Ok index;
     summary_returns := λ _, Ok tt;
     fit_returns := λ _, Ok tt;
     evaluate_returns := λ _, Ok [0.5%float; 0.5%float];
     predict_returns := λ _, Ok [[0.5%float]; [0.5%float]] |}.

(** A framework none of whose calls gets through. *)
Definition unreachable : framework :=
  {| load_data_returns := λ _, Raise (FrameworkError "URLError");
     get_word_index_returns := λ _, Raise (FrameworkError "URLError");
     summary_returns := λ _, Raise (FrameworkError "URLError");
     fit_returns := λ _, Raise (FrameworkError "URLError");
     evaluate_returns := λ _, Raise (FrameworkError "URLError");
     predict_returns := λ _, Raise (FrameworkError "URLError") |}.

(** ** Properties *)

(** *** Dictionaries built from pairs *)

Section Dict.

Context {K V : Type} `{Countable K}.

Lemma dict_snoc (l : list (K * V)) (k : K) (v : V) :
  dict (l ++ [(k, v)]) = <[k := v]> (dict l).
Proof. unfold dict. by rewrite fold_left_app. Qed.

Lemma dict_lookup_Some (l : list (K * V)) (k : K) (v : V) :
  dict l !! k = Some v → (k, v) ∈ l.
Proof.
  induction l as [| [k0 v0] l IH] using rev_ind.
  - unfold dict. simpl. by rewrite lookup_empty.
  - rewrite dict_snoc. rewrite elem_of_app, list_elem_of_singleton.
    destruct (decide (k0 = k)) as [-> | Hne].
    + rewrite lookup_insert_eq. intros [= ->]. by right.
    + rewrite lookup_insert_ne by done. intros Hl. left. by apply IH.
Qed.

Lemma dict_lookup_functional (l : list (K * V)) (k : K) (v : V) :
  (k, v) ∈ l → (∀ v', (k, v') ∈ l → v' = v) → dict l !! k = Some v.
Proof.
  induction l as [| [k0 v0] l IH] using rev_ind.
  - by intros ?%elem_of_nil.
  - intros Hin Hfun. rewrite dict_snoc.
    destruct (decide (k0 = k)) as [-> | Hne].
    + rewrite lookup_insert_eq. f_equal. apply Hfun.
      apply elem_of_app. right. by apply list_elem_of_singleton.
    + rewrite lookup_insert_ne by done.
      apply elem_of_app in Hin as [Hin | Hin].
      * apply IH; [done |]. intros v' Hv'. apply Hfun.
        apply elem_of_app. by left.
      * apply list_elem_of_singleton in Hin. congruence.
Qed.

End Dict.

(** *** The reverse index of [decode] *)

Lemma reverse_index_Some (index : list (string * Z)) (r : Z) (w : string) :
  reverse_index index !! r = Some w → (w, r) ∈ index.
Proof.
  unfold reverse_index. intros Hl%dict_lookup_Some.
  apply list_elem_of_fmap in Hl as [[key value] [[= -> ->] Hin]]. done.
Qed.

Lemma reverse_index_None (index : list (string * Z)) (r : Z) :
  (∀ w, (w, r) ∉ index) → reverse_index index !! r = None.
Proof.
  intros Hno. destruct (reverse_index index !! r) as [w |] eqn:E; [| done].
  apply reverse_index_Some in E. by destruct (Hno w).
Qed.

(** C8: the reverse index built inside [decode] inverts the word index.  When
    distinct words have distinct ranks, every entry [(w, r)] of the index
    (the index maps [w] to [r]) is found back: the reverse index maps [r]
    to [w]. *)
Theorem reverse_index_round_trip (index : list (string * Z)) (w : string) (r : Z) :
  (∀ w1 w2 r', (w1, r') ∈ index → (w2, r') ∈ index → w1 = w2) →
  (w, r) ∈ index →
  reverse_index index !! r = Some w.
Proof.
  intros Hinj Hin. unfold reverse_index.
  apply dict_lookup_functional.
  - apply list_elem_of_fmap. by exists (w, r).
  - intros w' Hw'. apply list_elem_of_fmap in Hw' as [[key value] [[= -> ->] Hin']].
    by apply (Hinj _ _ value).
Qed.

Lemma reverse_index_round_trip_witness :
  reverse_index sample_index !! 2%Z = Some "and".
Proof.
  apply reverse_index_round_trip.
  - intros w1 w2 r' H1 H2. unfold sample_index in *.
    repeat (apply elem_of_cons in H1 as [H1 | H1]; [injection H1 as -> -> |]);
      try (by apply elem_of_nil in H1);
      repeat (apply elem_of_cons in H2 as [H2 | H2]; [by injection H2 as -> |]);
      by apply elem_of_nil in H2.
  - unfold sample_index. set_solver.
Defined.

(** *** decode *)

Lemma decode_run (fw : framework) (tr : list event) (X_train : list (list Z))
    (review_index : Z) (index : list (string * Z)) (row : list Z) :
  get_word_index_returns fw (tr ++ [imdb_get_word_index]) = Ok index →
  getitem X_train review_index = Ok row →
  decode fw X_train review_index tr =
    (tr ++ [imdb_get_word_index;
            print [PStr (join " " ((λ i, match reverse_index index !! (i - 3)%Z with
                                         | Some w => w
                                         | None => "#"
                                         end) <$> row))]],
     Ok tt).
Proof.
  intros Hindex Hrow. unfold decode, bind, ask, lift, emit.
  rewrite Hindex, Hrow. by rewrite <- app_assoc.
Qed.

(** C5: [decode] is total on token sequences.  Once the word index is there
    and the review index selects a row, whatever integers the row holds,
    [decode] ends without an exception after printing one line: the
    space-separated words, token [i] giving the word the reverse index has
    at rank [i - 3] (a word of that rank in the index) and ["#"] when it has
    none (no word of the index has that rank).  With ranks counted from 1, as
    frequency ranks are, tokens 0, 1, 2 and 3 have no word and give ["#"]. *)
Theorem decode_total (fw : framework) (tr : list event) (X_train : list (list Z))
    (review_index : Z) (index : list (string * Z)) (row : list Z) :
  get_word_index_returns fw (tr ++ [imdb_get_word_index]) = Ok index →
  getitem X_train review_index = Ok row →
  decode fw X_train review_index tr =
    (tr ++ [imdb_get_word_index;
            print [PStr (join " " ((λ i, match reverse_index index !! (i - 3)%Z with
                                         | Some w => w
                                         | None => "#"
                                         end) <$> row))]],
     Ok tt)
  ∧ (∀ i w, reverse_index index !! (i - 3)%Z = Some w → (w, (i - 3)%Z) ∈ index)
  ∧ (∀ i, (∀ w, (w, (i - 3)%Z) ∉ index) → reverse_index index !! (i - 3)%Z = None)
  ∧ ((∀ w r, (w, r) ∈ index → (1 <= r)%Z) →
     ∀ i, (0 <= i <= 3)%Z → reverse_index index !! (i - 3)%Z = None).
Proof.
  intros Hindex Hrow. split; [by apply decode_run |].
  split; [intros i w; apply reverse_index_Some |].
  split; [intros i; apply reverse_index_None |].
  intros Hpos i Hi. apply reverse_index_None. intros w Hin.
  apply Hpos in Hin. lia.
Qed.

Lemma decode_total_witness :
  decode (answering (([], []), ([], [])) sample_index) [[0; 1; 4; 5; 9999]%Z] 0 [] =
    ([imdb_get_word_index; print [PStr "# # the and #"]], Ok tt).
Proof.
  apply (decode_total (answering (([], []), ([], [])) sample_index) []
           [[0; 1; 4; 5; 9999]%Z] 0 sample_index [0; 1; 4; 5; 9999]%Z);
    reflexivity.
Defined.

(** *** Padding *)

Lemma default_sentinel_is_zero : int_of_float default_value = 0%Z.
Proof. reflexivity. Qed.

Lemma pad_sequences_lookup (X : list (list Z)) (maxlen : Z) (value : option float)
    (i : nat) (s : list Z) :
  X !! i = Some s →
  pad_sequences X maxlen value !! i =
    Some (replicate (Z.to_nat maxlen - length (drop (length s - Z.to_nat maxlen) s))
            (int_of_float (default default_value value))
          ++ drop (length s - Z.to_nat maxlen) s).
Proof. intros Hs. unfold pad_sequences. rewrite list_lookup_fmap, Hs. done. Qed.

Lemma pad_sequences_rows (X : list (list Z)) (maxlen : Z) (value : option float) :
  length (pad_sequences X maxlen value) = length X.
Proof. unfold pad_sequences. apply length_fmap. Qed.

Lemma pad_sequences_all_padded (X : list (list Z)) (maxlen : Z) (value : option float) :
  Forall (λ row, length row = Z.to_nat maxlen) (pad_sequences X maxlen value).
Proof.
  unfold pad_sequences. apply Forall_fmap, Forall_forall. intros s _. simpl.
  rewrite length_app, length_replicate, length_drop. lia.
Qed.

(** A row that already has the fixed length is left as it is, whatever the
    sentinel: padding a padded batch again changes nothing. *)
Lemma pad_sequences_fixed_point (X : list (list Z)) (maxlen : Z) (value : option float) :
  Forall (λ s, length s = Z.to_nat maxlen) X →
  pad_sequences X maxlen value = X.
Proof.
  intros Hlen. unfold pad_sequences.
  induction Hlen as [| s X Hs _ IH]; [done |].
  rewrite fmap_cons, IH. f_equal.
  rewrite Hs, Nat.sub_diag, drop_0, Hs, Nat.sub_diag. done.
Qed.

(** C1: padding with [maxlen] = [MAX_REVIEW_LENGTH] = 500 gives every review
    the length 500.  Reviews come in any length; the padded batch has one row
    per review, each of length exactly 500: a review of at most 500 tokens is
    extended on the left with the sentinel 0, a longer one is truncated (to
    its last 500 tokens). *)
Theorem padded_reviews_have_length_500 (X : list (list Z)) (i : nat) (s : list Z) :
  X !! i = Some s →
  MAX_REVIEW_LENGTH = 500%Z
  ∧ length (pad_sequences X MAX_REVIEW_LENGTH None) = length X
  ∧ ∃ row, pad_sequences X MAX_REVIEW_LENGTH None !! i = Some row
      ∧ length row = 500
      ∧ (length s ≤ 500 → row = replicate (500 - length s) 0%Z ++ s)
      ∧ (500 < length s → row = drop (length s - 500) s ∧ length row < length s).
Proof.
  intros Hs. split; [reflexivity |]. split; [apply pad_sequences_rows |].
  eexists. split; [by apply pad_sequences_lookup |].
  change (Z.to_nat MAX_REVIEW_LENGTH) with 500.
  change (int_of_float (default default_value None)) with 0%Z.
  split; [| split].
  - rewrite length_app, length_replicate, length_drop. lia.
  - intros Hshort. replace (length s - 500) with 0 by lia. by rewrite drop_0.
  - intros Hlong. rewrite length_app, length_replicate, length_drop.
    replace (500 - (length s - (length s - 500))) with 0 by lia.
    split; [done | simpl; lia].
Qed.

Lemma padded_reviews_have_length_500_witness :
  ∃ row, pad_sequences [first_review; replicate 600 7%Z] MAX_REVIEW_LENGTH None !! 0 = Some row
    ∧ length row = 500
    ∧ (length first_review ≤ 500 → row = replicate (500 - length first_review) 0%Z ++ first_review)
    ∧ (500 < length first_review →
       row = drop (length first_review - 500) first_review ∧ length row < length first_review).
Proof.
  apply (padded_reviews_have_length_500 [first_review; replicate 600 7%Z] 0 first_review).
  reflexivity.
Defined.

(** Cell 9 printed 218 for the length of the first review; after padding it
    is 282 sentinels followed by the review. *)
Example first_review_padded :
  length first_review = 218
  ∧ pad_sequences [first_review] MAX_REVIEW_LENGTH None = [replicate 282 0%Z ++ first_review].
Proof. split; reflexivity. Qed.

Lemma getitem_elem_of {A} (a : list A) (k : Z) (x : A) :
  getitem a k = Ok x → x ∈ a.
Proof.
  unfold getitem. repeat case_match; try congruence.
  all: intros [= <-]; eapply list_elem_of_lookup_2; eassumption.
Qed.

(** The rows cell 35 pads are rows of the padded training set, so padding
    leaves them as they are: the models are asked about training rows 7737
    and 449 themselves. *)
Lemma inspected_samples_are_training_rows (raw : list (list Z)) (tr : list event) :
  let X_train := pad_sequences raw MAX_REVIEW_LENGTH None in
  ∀ padded_texts, (cell_35 X_train tr).2 = Ok padded_texts →
    ∃ text_bad text_good,
      getitem X_train 7737 = Ok text_bad
      ∧ getitem X_train 449 = Ok text_good
      ∧ padded_texts = [text_bad; text_good].
Proof.
  intros X_train padded_texts. unfold cell_35, bind, lift, ret.
  destruct (getitem X_train 7737) as [text_bad |] eqn:Hbad; [| done].
  destruct (getitem X_train 449) as [text_good |] eqn:Hgood; [| done].
  cbv beta iota delta [snd].
  rewrite (pad_sequences_fixed_point [text_bad; text_good]).
  - intros Heq. exists text_bad, text_good. repeat split. congruence.
  - pose proof (pad_sequences_all_padded raw MAX_REVIEW_LENGTH None) as Hall.
    rewrite Forall_forall in Hall.
    apply getitem_elem_of in Hbad, Hgood.
    repeat constructor; by apply Hall.
Qed.

(** C10: the explicit sentinel of cell 35 is the default one.  For every list
    of token sequences and every length, padding with [value = 0.0] gives the
    batch that padding without [value] gives, as done for the training and
    test sets: both store the integer 0.  The inspected samples, rows of the
    padded training set, come out of cell 35 as the rows the models were
    trained on. *)
Theorem explicit_sentinel_is_default (texts : list (list Z)) (maxlen : Z) :
  pad_sequences texts maxlen (Some 0.0%float) = pad_sequences texts maxlen None
  ∧ int_of_float 0.0%float = 0%Z
  ∧ int_of_float default_value = 0%Z
  ∧ ∀ (raw : list (list Z)) (tr : list event) (padded_texts : list (list Z)),
      let X_train := pad_sequences raw MAX_REVIEW_LENGTH None in
      (cell_35 X_train tr).2 = Ok padded_texts →
      Forall (λ row, row ∈ X_train) padded_texts
      ∧ padded_texts = pad_sequences padded_texts MAX_REVIEW_LENGTH None.
Proof.
  split; [reflexivity |]. split; [reflexivity |]. split; [reflexivity |].
  intros raw tr padded_texts X_train Hrun.
  destruct (inspected_samples_are_training_rows raw tr padded_texts Hrun)
    as (text_bad & text_good & Hbad & Hgood & ->).
  apply getitem_elem_of in Hbad, Hgood.
  split; [by repeat constructor |].
  symmetry. apply pad_sequences_fixed_point.
  pose proof (pad_sequences_all_padded raw MAX_REVIEW_LENGTH None) as Hall.
  rewrite Forall_forall in Hall.
  repeat constructor; by apply Hall.
Qed.

(** *** Model topology *)

(** C4 as stated fails: [model], built in cell 40, ends with [Dense(1)], a
    single unit with no activation. *)
Lemma model_does_not_end_with_sigmoid :
  ¬ Forall (λ m, begins_with_embedding m ∧ ends_with_sigmoid m) models.
Proof.
  intros Hall. apply Forall_forall with (x := model) in Hall.
  - destruct Hall as [_ Hend]. discriminate Hend.
  - unfold models. set_solver.
Qed.

(** C4, amended: every model the notebook constructs is a linear stack of
    layers that begins with an embedding layer and ends with a single-unit
    dense layer; for [model_fnn], [model_rnn] and [model_lstm] that layer has
    sigmoid activation, for [model] it has none. *)
Theorem models_begin_with_embedding_end_with_one_unit :
  models = [model_fnn; model_rnn; model_lstm; model]
  ∧ Forall (λ m, begins_with_embedding m
                 ∧ ∃ activation, last (layers m) = Some (Dense 1 activation)) models
  ∧ Forall ends_with_sigmoid [model_fnn; model_rnn; model_lstm]
  ∧ last (layers model) = Some (Dense 1 None).
Proof.
  split; [reflexivity |].
  split; [| split; [repeat constructor | reflexivity]].
  repeat constructor; by eexists.
Qed.

(** *** The whole run *)

Lemma wp_ret {A} (a : A) tr Q : Q tr (Ok a) → wp (ret a) tr Q.
Proof. done. Qed.

Lemma wp_lift {A} (r : result A) tr Q : Q tr r → wp (lift r) tr Q.
Proof. done. Qed.

Lemma wp_emit ev tr Q : Q (tr ++ [ev]) (Ok tt) → wp (emit ev) tr Q.
Proof. done. Qed.

Lemma wp_ask {A} ev (answer : list event → result A) tr Q :
  Q (tr ++ [ev]) (answer (tr ++ [ev])) → wp (ask ev answer) tr Q.
Proof. done. Qed.

Lemma wp_bind {A B} (c : NB A) (k : A → NB B) tr Q :
  wp c tr (λ tr' r, match r with
                    | Ok a => wp (k a) tr' Q
                    | Raise e => Q tr' (Raise e)
                    end) →
  wp (bind c k) tr Q.
Proof. unfold wp, bind. by destruct (c tr) as [tr' [a | e]]. Qed.

(** One statement of the script: open the cell it is in, run it, and split on
    what a call or a built-in answers.  A goal that is left speaks of the
    trace at an exception, or at the end of the run. *)
Ltac wp_step :=
  cbv beta iota; cbn [app];
  lazymatch goal with
  | |- wp (bind _ _) _ _ => apply wp_bind
  | |- wp (ret _) _ _ => apply wp_ret
  | |- wp (emit _) _ _ => apply wp_emit
  | |- wp (ask _ _) _ _ =>
      apply wp_ask; cbn [app];
      lazymatch goal with
      | |- match ?r with Ok _ => _ | Raise _ => _ end =>
          let E := fresh "Hanswer" in destruct r eqn:E
      | _ => idtac
      end
  | |- wp (lift ?r) _ _ =>
      apply wp_lift;
      lazymatch goal with
      | |- match ?r with Ok _ => _ | Raise _ => _ end =>
          let E := fresh "Hbuiltin" in destruct r eqn:E
      | _ => idtac
      end
  | |- wp (let '(_, _) := ?p in _) _ _ => destruct p
  | |- wp (notebook _) _ _ => unfold notebook
  | |- wp cell_5 _ _ => unfold cell_5
  | |- wp (cell_9 _) _ _ => unfold cell_9
  | |- wp (cell_11 _ _) _ _ => unfold cell_11
  | |- wp (cell_15 _) _ _ => unfold cell_15
  | |- wp (cell_17 _ _ _ _ _) _ _ => unfold cell_17
  | |- wp (cell_21 _) _ _ => unfold cell_21
  | |- wp (cell_23 _ _ _ _ _) _ _ => unfold cell_23
  | |- wp (cell_28 _ _ _ _ _) _ _ => unfold cell_28
  | |- wp (cell_34 _ _) _ _ => unfold cell_34
  | |- wp (cell_35 _) _ _ => unfold cell_35
  | |- wp (cell_36 _ _) _ _ => unfold cell_36
  | |- wp (print_summary _ _) _ _ => unfold print_summary
  | |- wp (fit_and_evaluate _ _ _ _ _ _ _) _ _ => unfold fit_and_evaluate
  | |- wp (decode _ _ _) _ _ => unfold decode
  end.

(** C7: the dataset is loaded through exactly one library call with a single
    parameter.  Whatever the framework answers, the run makes one
    [imdb.load_data] call, and its only argument is [num_words], the
    vocabulary cutoff [VOCABULARY_SIZE] = 10000. *)
Theorem one_load_data_call (fw : framework) :
  load_data_calls (notebook fw []).1 = [[("num_words", 10000%Z)]]
  ∧ VOCABULARY_SIZE = 10000%Z.
Proof.
  split; [| reflexivity].
  change (wp (notebook fw) [] (λ tr _, load_data_calls tr = [[("num_words", 10000%Z)]])).
  repeat wp_step; reflexivity.
Qed.

(** C6: the three models are trained alike.  Each of [model_fnn], [model_rnn]
    and [model_lstm] is compiled with loss 'binary_crossentropy' and
    optimizer 'adam'; every [fit] call of a run, whatever the framework
    answers, asks for [EPOCHS] = 2 epochs; and a run that reaches the end has
    made exactly three [fit] calls, one per model, all on the same padded
    training set and labels. *)
Theorem training_is_fixed (fw : framework) :
  EPOCHS = 2%Z
  ∧ Forall (λ m, compiled m = Some adam_binary_crossentropy)
      [model_fnn; model_rnn; model_lstm]
  ∧ Forall (λ c, c.2 = EPOCHS) (fit_calls (notebook fw []).1)
  ∧ ((notebook fw []).2 = Ok tt →
     ∃ X_train y_train X_test y_test,
       load_data_returns fw [np_random_seed 1; imdb_load_data [("num_words", 10000%Z)]]
         = Ok ((X_train, y_train), (X_test, y_test))
       ∧ let X := pad_sequences X_train MAX_REVIEW_LENGTH None in
         fit_calls (notebook fw []).1 =
           [(model_fnn, (X, y_train), 2%Z);
            (model_rnn, (X, y_train), 2%Z);
            (model_lstm, (X, y_train), 2%Z)]).
Proof.
  split; [reflexivity |].
  split; [repeat constructor |].
  change (wp (notebook fw) []
            (λ tr r,
               Forall (λ c, c.2 = EPOCHS) (fit_calls tr)
               ∧ (r = Ok tt →
                  ∃ X_train y_train X_test y_test,
                    load_data_returns fw
                      [np_random_seed 1; imdb_load_data [("num_words", 10000%Z)]]
                      = Ok ((X_train, y_train), (X_test, y_test))
                    ∧ let X := pad_sequences X_train MAX_REVIEW_LENGTH None in
                      fit_calls tr =
                        [(model_fnn, (X, y_train), 2%Z);
                         (model_rnn, (X, y_train), 2%Z);
                         (model_lstm, (X, y_train), 2%Z)]))).
  repeat wp_step;
    (split; [repeat constructor | try discriminate]).
  intros _. eexists _, _, _, _. split; [eassumption | reflexivity].
Qed.

(** [model], the model of cell 40, is neither compiled nor trained. *)
Lemma model_is_only_built (fw : framework) :
  compiled model = None
  ∧ Forall (λ c, c.1.1 ≠ model) (fit_calls (notebook fw []).1).
Proof.
  split; [reflexivity |].
  change (wp (notebook fw) [] (λ tr _, Forall (λ c, c.1.1 ≠ model) (fit_calls tr))).
  repeat wp_step; repeat constructor; discriminate.
Qed.

(** *** Failures *)

Lemma getitem_raises {A} (a : list A) (k : Z) (e : exn) :
  getitem a k = Raise e → e = IndexError.
Proof.
  unfold getitem. repeat case_match; congruence.
Qed.

Lemma np_hstack_raises (seqs : list (list Z)) (e : exn) :
  np_hstack seqs = Raise e → e = ValueError.
Proof. destruct seqs; simpl; congruence. Qed.

(** C2 as stated fails: a token with no entry in the reverse index does not
    make [decode] fail.  Here the row holds the token 0, the reverse index
    has nothing at rank -3, and [decode] ends normally. *)
Lemma decode_recovers_from_missing_word :
  ¬ (∀ (fw : framework) (tr : list event) (X_train : list (list Z)) (review_index : Z)
       (index : list (string * Z)) (row : list Z) (i : Z),
       get_word_index_returns fw (tr ++ [imdb_get_word_index]) = Ok index →
       getitem X_train review_index = Ok row →
       i ∈ row →
       reverse_index index !! (i - 3)%Z = None →
       ∃ e, (decode fw X_train review_index tr).2 = Raise e).
Proof.
  intros Hclaim.
  destruct (Hclaim (answering (([], []), ([], [])) sample_index) []
              [[0; 4]%Z] 0%Z sample_index [0; 4]%Z 0%Z) as [e He];
    [reflexivity | reflexivity | set_solver | reflexivity |].
  discriminate He.
Qed.

Lemma all_prefixes_sound (P : list event → Prop) (after before : list event) :
  all_prefixes P before after →
  ∀ q, q `prefix_of` after → P (before ++ q).
Proof.
  revert before. induction after as [| ev after IH]; intros before [Hb Hrest] q Hq.
  - apply prefix_nil_inv in Hq as ->. by rewrite app_nil_r.
  - destruct q as [| x q]; [by rewrite app_nil_r |].
    apply prefix_cons_inv_1 in Hq as Hx. apply prefix_cons_inv_2 in Hq. subst x.
    rewrite (cons_middle ev before q), app_assoc. by apply IH.
Qed.

(** What the framework or a built-in answered, used in a hypothesis. *)
Ltac use_answers_in Hf :=
  repeat match type of Hf with
         | context [exn_of ?t] =>
             match goal with
             | H : t = _ |- _ => rewrite H in Hf; cbn [exn_of] in Hf
             end
         | context [match ?t with Ok _ => _ | Raise _ => _ end] =>
             match goal with
             | H : t = _ |- _ => rewrite H in Hf; cbv beta iota in Hf
             end
         end.

(** What fails at an explicit trace, from the answers of the run. *)
Ltac failure_in Hf :=
  unfold failure, framework_raised in Hf; cbn [last] in Hf;
  use_answers_in Hf;
  unfold builtin_raised, loaded_train, first_raised in Hf;
  cbn [length take] in Hf; cbv beta iota zeta in Hf;
  use_answers_in Hf.

(** Every initial part of the trace of a leaf of the run: nothing fails
    there, unless it is the whole trace and the run ends in that exception. *)
Ltac each_prefix :=
  lazymatch goal with
  | |- True => exact I
  | |- _ ∧ _ =>
      split;
      [ let Hf := fresh "Hf" in
        intros Hf; failure_in Hf;
        first [discriminate Hf | injection Hf as <-; split; reflexivity]
      | each_prefix ]
  end.

(** C2, amended: every failure ends the run where it happens, with its own
    exception; the script catches, converts and swallows nothing.  As soon
    as a framework call raises, or a built-in the script applies next
    ([a[k]], [np.hstack]) raises, the trace stops there and the run ends in
    that very exception; and a run that ends in an exception ends in the one
    raised at the end of its trace.  In [decode], an exception of
    [imdb.get_word_index()] or of [X_train[review_index]] ends [decode] with
    that exception and nothing printed.  A token with no entry in the reverse
    index is no failure: with the index loaded and the row selected, [decode]
    ends normally. *)
Theorem failures_propagate (fw : framework) :
  (∀ p e, p `prefix_of` (notebook fw []).1 → failure fw p = Some e →
          (notebook fw []).1 = p ∧ (notebook fw []).2 = Raise e)
  ∧ (∀ e, (notebook fw []).2 = Raise e → failure fw (notebook fw []).1 = Some e)
  ∧ (∀ tr X_train review_index e,
       get_word_index_returns fw (tr ++ [imdb_get_word_index]) = Raise e →
       decode fw X_train review_index tr = (tr ++ [imdb_get_word_index], Raise e))
  ∧ (∀ tr X_train review_index index e,
       get_word_index_returns fw (tr ++ [imdb_get_word_index]) = Ok index →
       getitem X_train review_index = Raise e →
       e = IndexError
       ∧ decode fw X_train review_index tr = (tr ++ [imdb_get_word_index], Raise e))
  ∧ (∀ tr X_train review_index index row,
       get_word_index_returns fw (tr ++ [imdb_get_word_index]) = Ok index →
       getitem X_train review_index = Ok row →
       (decode fw X_train review_index tr).2 = Ok tt).
Proof.
  assert (wp (notebook fw) []
            (λ tr r,
               (∀ p e, p `prefix_of` tr → failure fw p = Some e →
                       tr = p ∧ r = Raise e)
               ∧ (∀ e, r = Raise e → failure fw tr = Some e))) as [Hstop Hend].
  { repeat wp_step.
    all: try match goal with H : Raise _ = Ok _ |- _ => discriminate H end.
    all: lazymatch goal with
         | |- (∀ p e, p `prefix_of` ?T → _ → _ = p ∧ ?R = _) ∧ _ =>
             split;
             [ let p := fresh "p" in let ex := fresh "ex" in let Hp := fresh "Hp" in
               intros p ex Hp;
               refine (all_prefixes_sound
                         (λ p, failure fw p = Some ex → T = p ∧ R = Raise ex) T [] _ p Hp);
               cbn [all_prefixes app]; each_prefix
             | let ex := fresh "ex" in let He := fresh "He" in
               intros ex He;
               first [ discriminate He
                     | injection He as <-;
                       match goal with
                       | |- ?f = Some ?e =>
                           let Hf := fresh "Hf" in
                           destruct f eqn:Hf; failure_in Hf;
                           first [discriminate Hf | by injection Hf as <-]
                       end ] ]
         end. }
  split; [exact Hstop |]. split; [exact Hend |]. split; [| split].
  - intros tr X_train review_index e He.
    unfold decode, bind, ask. by rewrite He.
  - intros tr X_train review_index index e Hindex He.
    split; [by eapply getitem_raises |].
    unfold decode, bind, ask, lift. by rewrite Hindex, He.
  - intros tr X_train review_index index row Hindex Hrow.
    by rewrite (decode_run fw tr X_train review_index index row).
Qed.

(** Each way of failing happens: the dataset cannot be loaded, the word
    index cannot be fetched, the review index is outside the training set,
    the training set has fewer than five reviews. *)
Example run_stops_when_load_data_fails :
  notebook unreachable [] =
    ([np_random_seed 1; imdb_load_data [("num_words", 10000%Z)]],
     Raise (FrameworkError "URLError")).
Proof. reflexivity. Qed.

Example decode_stops_when_word_index_fails :
  decode unreachable [[4; 5]%Z] 0 [] =
    ([imdb_get_word_index], Raise (FrameworkError "URLError")).
Proof. reflexivity. Qed.

Example decode_stops_outside_the_training_set :
  decode (answering (([], []), ([], [])) sample_index) [[4; 5]%Z] 7337 [] =
    ([imdb_get_word_index], Raise IndexError)
  ∧ decode (answering (([], []), ([], [])) sample_index) [[4; 5]%Z] (-1) [] =
    ([imdb_get_word_index; print [PStr "the and"]], Ok tt).
Proof. split; reflexivity. Qed.

Example run_stops_on_a_short_training_set :
  (notebook (answering (([[4]; [5]]%Z, [1; 0]%Z), ([], [])) sample_index) []).2 =
    Raise IndexError.
Proof. reflexivity. Qed.

(** *** The inspected samples *)

(** X15: on every training set, a run that reaches the end has printed
    reviews 7337 and 449 of the padded training set, three newlines between
    them, and has asked each of the three models about the same batch,
    reviews 7737 and 449.  The padded training set is the loader's, padded
    by cell 11; each printed text is made with the word index that [decode]
    call was given (the calls are events 22 and 25 of the run). *)
Lemma decoded_and_predicted_reviews (fw : framework)
    (X_train : list (list Z)) (y_train : list Z)
    (X_test : list (list Z)) (y_test : list Z) :
  load_data_returns fw [np_random_seed 1; imdb_load_data [("num_words", 10000%Z)]]
    = Ok ((X_train, y_train), (X_test, y_test)) →
  (notebook fw []).2 = Ok tt →
  let X := pad_sequences X_train MAX_REVIEW_LENGTH None in
  ∃ (index_bad index_good : list (string * Z)) (row_7337 row_449 row_7737 : list Z),
    get_word_index_returns fw (take 23 (notebook fw []).1) = Ok index_bad
    ∧ get_word_index_returns fw (take 26 (notebook fw []).1) = Ok index_good
    ∧ getitem X 7337 = Ok row_7337
    ∧ getitem X 449 = Ok row_449
    ∧ getitem X 7737 = Ok row_7737
    ∧ printed_texts (notebook fw []).1 =
        [join " " ((λ i, dict_get (reverse_index index_bad) (i - 3)%Z "#") <$> row_7337);
         str_mul newline 3;
         join " " ((λ i, dict_get (reverse_index index_good) (i - 3)%Z "#") <$> row_449)]
    ∧ predict_calls (notebook fw []).1 =
        (λ m, (m, [row_7737; row_449])) <$> [model_fnn; model_rnn; model_lstm].
Proof.
  intros Hload. change 10000%Z with VOCABULARY_SIZE in Hload.
  intros Hrun X. revert Hrun.
  change (wp (notebook fw) []
    (λ tr r, r = Ok tt →
       ∃ (index_bad index_good : list (string * Z)) (row_7337 row_449 row_7737 : list Z),
         get_word_index_returns fw (take 23 tr) = Ok index_bad
         ∧ get_word_index_returns fw (take 26 tr) = Ok index_good
         ∧ getitem X 7337 = Ok row_7337
         ∧ getitem X 449 = Ok row_449
         ∧ getitem X 7737 = Ok row_7737
         ∧ printed_texts tr =
             [join " " ((λ i, dict_get (reverse_index index_bad) (i - 3)%Z "#") <$> row_7337);
              str_mul newline 3;
              join " " ((λ i, dict_get (reverse_index index_good) (i - 3)%Z "#") <$> row_449)]
         ∧ predict_calls tr =
             (λ m, (m, [row_7737; row_449])) <$> [model_fnn; model_rnn; model_lstm])).
  subst X.
  repeat wp_step; try discriminate.
  intros _. simplify_eq. eexists _, _, _, _, _.
  cbn [take].
  repeat (split; [eassumption |]).
  split; [reflexivity |].
  rewrite (pad_sequences_fixed_point [_; _]); [reflexivity |].
  pose proof (pad_sequences_all_padded X_train MAX_REVIEW_LENGTH None) as Hall.
  rewrite Forall_forall in Hall.
  repeat constructor; apply Hall; eapply getitem_elem_of; eassumption.
Qed.

(** C3 on the code: the bad review printed is not the one the models score.
    On [sample_dataset] the run reaches the end; cell 34 prints review 7337
    ("and" after the padding) and review 449; the three [predict] calls get
    the batch made of reviews 7737 (the token of "a") and 449. *)
Theorem decoded_bad_review_is_not_the_predicted_one :
  let run := notebook (answering sample_dataset sample_index) [] in
  run.2 = Ok tt
  ∧ printed_texts run.1 =
      [join " " (replicate 499 "#" ++ ["and"]);
       str_mul newline 3;
       join " " (replicate 499 "#" ++ ["the"])]
  ∧ predict_calls run.1 =
      (λ m, (m, [replicate 499 0%Z ++ [6%Z]; replicate 499 0%Z ++ [4%Z]]))
        <$> [model_fnn; model_rnn; model_lstm]
  ∧ getitem sample_reviews 7337 = Ok [5%Z]
  ∧ getitem sample_reviews 7737 = Ok [6%Z].
Proof. vm_compute. repeat split. Qed.

(** *** Labels *)

Lemma np_unique_elem_of (a : list Z) (x : Z) : x ∈ np_unique a ↔ x ∈ a.
Proof.
  unfold np_unique. by rewrite merge_sort_Permutation, elem_of_remove_dups.
Qed.

(** What labels the loader returns is the framework's business.  Cell 9
    prints the categories of the training labels, and the recorded output is
    [0 1]: a training set that prints so has the labels 0 and 1, both, and no
    other. *)
Lemma printed_categories_bound_the_labels (y_train : list Z) :
  np_unique y_train = [0; 1]%Z →
  ∀ l, l ∈ y_train ↔ l = 0%Z ∨ l = 1%Z.
Proof.
  intros Hcat l. rewrite <- np_unique_elem_of, Hcat.
  rewrite !elem_of_cons, elem_of_nil. tauto.
Qed.

(** ** Further properties of the code *)

(** *** Indexing the training set *)

Lemma getitem_Ok_bounds {A} (a : list A) (k : Z) (x : A) :
  getitem a k = Ok x → (- Z.of_nat (length a) <= k < Z.of_nat (length a))%Z.
Proof.
  unfold getitem. repeat case_match; try congruence; intros _; lia.
Qed.

Lemma getitem_in_bounds {A} (a : list A) (k : Z) :
  (- Z.of_nat (length a) <= k < Z.of_nat (length a))%Z →
  ∃ x, getitem a k = Ok x.
Proof.
  intros Hk. unfold getitem.
  destruct (k <? 0)%Z eqn:Hneg.
  - destruct (a !! Z.to_nat (Z.of_nat (length a) + k)) as [x |] eqn:Hx.
    + exists x. by replace ((0 <=? _) && _)%Z with true by lia.
    + apply lookup_ge_None in Hx. lia.
  - destruct (a !! Z.to_nat k) as [x |] eqn:Hx.
    + exists x. by replace ((0 <=? _) && _)%Z with true by lia.
    + apply lookup_ge_None in Hx. lia.
Qed.

Lemma getitem_from_the_end {A} (a : list A) (k : Z) :
  (0 <= k < Z.of_nat (length a))%Z →
  getitem a (k - Z.of_nat (length a)) = getitem a k.
Proof.
  intros Hk. unfold getitem.
  replace (k - Z.of_nat (length a) <? 0)%Z with true by lia.
  replace (k <? 0)%Z with false by lia.
  by replace (Z.of_nat (length a) + (k - Z.of_nat (length a)))%Z with k by lia.
Qed.

Lemma getitem_fmap {A B} (f : A → B) (a : list A) (k : Z) (x : A) :
  getitem a k = Ok x → getitem (f <$> a) k = Ok (f x).
Proof.
  unfold getitem. cbv zeta. rewrite length_fmap, list_lookup_fmap.
  destruct ((0 <=? _) && _)%Z; [| done].
  destruct (a !! _) as [y |]; [| done].
  by intros [= ->].
Qed.

(** X1: which review indices [decode] accepts.  With the word index fetched,
    [decode] ends in IndexError, having printed nothing, exactly when the
    review index is outside [-n, n), [n] the number of reviews; inside, it
    ends normally. *)
Theorem decode_review_index_bounds (fw : framework) (tr : list event)
    (X_train : list (list Z)) (review_index : Z) (index : list (string * Z)) :
  get_word_index_returns fw (tr ++ [imdb_get_word_index]) = Ok index →
  let n := Z.of_nat (length X_train) in
  ((review_index < - n ∨ n <= review_index)%Z ↔
     decode fw X_train review_index tr = (tr ++ [imdb_get_word_index], Raise IndexError))
  ∧ ((- n <= review_index < n)%Z ↔ (decode fw X_train review_index tr).2 = Ok tt).
Proof.
  intros Hindex n.
  destruct (getitem X_train review_index) as [row | e] eqn:Hrow.
  - pose proof (getitem_Ok_bounds _ _ _ Hrow) as Hin.
    rewrite (decode_run fw tr X_train review_index index row Hindex Hrow).
    split; split; try done; intros; lia.
  - assert (¬ (- n <= review_index < n)%Z) as Hout.
    { intros [x Hx]%getitem_in_bounds. congruence. }
    apply getitem_raises in Hrow as Heq. subst e.
    assert (decode fw X_train review_index tr =
              (tr ++ [imdb_get_word_index], Raise IndexError)) as ->.
    { unfold decode, bind, ask, lift. by rewrite Hindex, Hrow. }
    split; split; try done; intros; lia.
Qed.

Lemma decode_review_index_bounds_witness :
  let fw := answering (([], []), ([], [])) sample_index in
  let n := Z.of_nat (length [[4; 5]; [6]]%Z) in
  ((2 < - n ∨ n <= 2)%Z ↔
     decode fw [[4; 5]; [6]]%Z 2 [] = ([] ++ [imdb_get_word_index], Raise IndexError))
  ∧ ((- n <= 2 < n)%Z ↔ (decode fw [[4; 5]; [6]]%Z 2 []).2 = Ok tt).
Proof.
  apply (decode_review_index_bounds (answering (([], []), ([], [])) sample_index)
           [] [[4; 5]; [6]]%Z 2 sample_index).
  reflexivity.
Defined.

(** X2: a negative review index counts from the end.  For [0 <= k < n],
    [decode(k - n)] does what [decode(k)] does: same calls, same line
    printed, same result. *)
Theorem decode_counts_from_the_end (fw : framework) (tr : list event)
    (X_train : list (list Z)) (k : Z) :
  (0 <= k < Z.of_nat (length X_train))%Z →
  decode fw X_train (k - Z.of_nat (length X_train)) tr = decode fw X_train k tr.
Proof.
  intros Hk. unfold decode. by rewrite getitem_from_the_end.
Qed.

Lemma decode_counts_from_the_end_witness :
  decode (answering (([], []), ([], [])) sample_index) [[4; 5]; [6]]%Z
    (1 - Z.of_nat (length [[4; 5]; [6]]%Z)) [] =
  decode (answering (([], []), ([], [])) sample_index) [[4; 5]; [6]]%Z 1 [].
Proof.
  apply (decode_counts_from_the_end (answering (([], []), ([], [])) sample_index)
           [] [[4; 5]; [6]]%Z 1).
  simpl. lia.
Defined.

(** *** What decode prints *)

Lemma dict_app_not_in {K V} `{Countable K} (l1 l2 : list (K * V)) (k : K) :
  (∀ v, (k, v) ∉ l2) → dict (l1 ++ l2) !! k = dict l1 !! k.
Proof.
  induction l2 as [| [k0 v0] l2 IH] using rev_ind; intros Hno.
  - by rewrite app_nil_r.
  - rewrite app_assoc, dict_snoc.
    rewrite lookup_insert_ne.
    + apply IH. intros v Hv. apply (Hno v), elem_of_app. by left.
    + intros ->. apply (Hno v0), elem_of_app. right. by apply list_elem_of_singleton.
Qed.

(** X3: when two words share a rank, the reverse index keeps the one that
    comes later in the index.  The entry [(w, r)] is found at [r] as soon as
    no entry after it has rank [r], whatever comes before. *)
Theorem reverse_index_keeps_the_last (before after : list (string * Z))
    (w : string) (r : Z) :
  (∀ w', (w', r) ∉ after) →
  reverse_index (before ++ (w, r) :: after) !! r = Some w.
Proof.
  intros Hlast. unfold reverse_index.
  rewrite fmap_app, fmap_cons.
  change ((r, w) :: ?l) with ([(r, w)] ++ l). rewrite app_assoc.
  rewrite dict_app_not_in.
  - rewrite dict_snoc. apply lookup_insert_eq.
  - intros v Hv. apply list_elem_of_fmap in Hv as [[key value] [[= -> ->] Hin]].
    by apply (Hlast key).
Qed.

Lemma reverse_index_keeps_the_last_witness :
  reverse_index ([("film", 20%Z)] ++ ("movie", 20%Z) :: [("the", 1%Z)]) !! 20%Z
    = Some "movie".
Proof.
  apply (reverse_index_keeps_the_last [("film", 20%Z)] [("the", 1%Z)] "movie" 20%Z).
  intros w' Hin. apply list_elem_of_singleton in Hin. discriminate Hin.
Defined.

(** X4: [decode] undoes the encoding of the dataset, rank plus 3.  When
    distinct words have distinct ranks, a row made of the tokens [r + 3] of
    entries [(w, r)] of the index is printed as those words, in order,
    separated by single spaces. *)
Theorem decode_prints_the_words (fw : framework) (tr : list event)
    (X_train : list (list Z)) (review_index : Z) (index : list (string * Z))
    (entries : list (string * Z)) :
  get_word_index_returns fw (tr ++ [imdb_get_word_index]) = Ok index →
  (∀ w1 w2 r, (w1, r) ∈ index → (w2, r) ∈ index → w1 = w2) →
  Forall (λ entry, entry ∈ index) entries →
  getitem X_train review_index = Ok ((λ entry, entry.2 + 3)%Z <$> entries) →
  decode fw X_train review_index tr =
    (tr ++ [imdb_get_word_index; print [PStr (join " " (entries.*1))]], Ok tt).
Proof.
  intros Hindex Hinj Hentries Hrow.
  rewrite (decode_run fw tr X_train review_index index _ Hindex Hrow).
  rewrite <- list_fmap_compose.
  assert ((λ i, match reverse_index index !! (i - 3)%Z with
                | Some w => w
                | None => "#"
                end) ∘ (λ entry : string * Z, (entry.2 + 3)%Z) <$> entries
          = entries.*1) as ->; [| done].
  apply Forall_fmap_ext_1. eapply Forall_impl; [exact Hentries |].
  intros [w r] Hin. simpl.
  replace (r + 3 - 3)%Z with r by lia.
  assert (reverse_index index !! r = Some w) as ->; [| done].
  unfold reverse_index. apply dict_lookup_functional.
  - apply list_elem_of_fmap. by exists (w, r).
  - intros w' Hw'. apply list_elem_of_fmap in Hw' as [[key value] [[= -> ->] Hin']].
    by apply (Hinj _ _ value).
Qed.

Lemma decode_prints_the_words_witness :
  decode (answering (([], []), ([], [])) sample_index) [[7; 4; 5]%Z] 0 [] =
    ([] ++ [imdb_get_word_index; print [PStr "of the and"]], Ok tt).
Proof.
  apply (decode_prints_the_words (answering (([], []), ([], [])) sample_index) []
           [[7; 4; 5]%Z] 0 sample_index [("of", 4%Z); ("the", 1%Z); ("and", 2%Z)]).
  - reflexivity.
  - intros w1 w2 r H1 H2. unfold sample_index in *.
    repeat (apply elem_of_cons in H1 as [H1 | H1]; [injection H1 as -> -> |]);
      try (by apply elem_of_nil in H1);
      repeat (apply elem_of_cons in H2 as [H2 | H2]; [by injection H2 as -> |]);
      by apply elem_of_nil in H2.
  - unfold sample_index. repeat constructor; set_solver.
  - reflexivity.
Defined.

(** X5: what [decode] prints for a review of the padded training set.  When
    no word of the index has rank -3, review [k] of the raw training set,
    once padded, is printed as 500 words: a placeholder ["#"] for each
    sentinel in front, then the words of its last tokens (all of them when
    the review has at most 500). *)
Theorem decode_prints_the_padding (fw : framework) (tr : list event)
    (raw : list (list Z)) (k : Z) (index : list (string * Z)) (s : list Z) :
  get_word_index_returns fw (tr ++ [imdb_get_word_index]) = Ok index →
  (∀ w, (w, (-3)%Z) ∉ index) →
  getitem raw k = Ok s →
  let word := λ i, dict_get (reverse_index index) (i - 3)%Z "#" in
  let words := replicate (500 - length s) "#" ++ drop (length s - 500) (word <$> s) in
  decode fw (pad_sequences raw MAX_REVIEW_LENGTH None) k tr =
    (tr ++ [imdb_get_word_index; print [PStr (join " " words)]], Ok tt)
  ∧ length words = 500.
Proof.
  intros Hindex Hno Hs word words.
  assert (length words = 500) as Hlen.
  { unfold words. rewrite length_app, length_replicate, length_drop, length_fmap. lia. }
  split; [| done].
  apply (getitem_fmap
           (λ s, let trunc := drop (length s - Z.to_nat MAX_REVIEW_LENGTH) s in
                 replicate (Z.to_nat MAX_REVIEW_LENGTH - length trunc)
                   (int_of_float (default default_value None)) ++ trunc)) in Hs.
  change (getitem (pad_sequences raw MAX_REVIEW_LENGTH None) k = Ok
            (replicate (500 - length (drop (length s - 500) s)) 0%Z
             ++ drop (length s - 500) s)) in Hs.
  rewrite (decode_run fw tr _ k index _ Hindex Hs).
  rewrite fmap_app, fmap_replicate, fmap_drop, length_drop.
  change (0 - 3)%Z with (-3)%Z.
  rewrite (reverse_index_None index (-3)%Z Hno).
  replace (500 - (length s - (length s - 500))) with (500 - length s) by lia.
  done.
Qed.

Lemma decode_prints_the_padding_witness :
  decode (answering (([], []), ([], [])) sample_index)
    (pad_sequences [[4; 5]%Z] MAX_REVIEW_LENGTH None) 0 [] =
    ([] ++ [imdb_get_word_index;
            print [PStr (join " " (replicate (500 - length [4; 5]%Z) "#"
                                   ++ drop (length [4; 5]%Z - 500) ["the"; "and"]))]],
     Ok tt).
Proof.
  apply (decode_prints_the_padding (answering (([], []), ([], [])) sample_index) []
           [[4; 5]%Z] 0 sample_index [4; 5]%Z).
  - reflexivity.
  - intros w Hin. unfold sample_index in Hin.
    repeat (apply elem_of_cons in Hin as [Hin | Hin]; [discriminate Hin |]).
    by apply elem_of_nil in Hin.
  - reflexivity.
Defined.

(** *** What the models are given *)

Lemma pad_sequences_row_lengths (X : list (list Z)) (value : option float) :
  Forall (λ row, Z.of_nat (length row) = MAX_REVIEW_LENGTH)
    (pad_sequences X MAX_REVIEW_LENGTH value).
Proof.
  eapply Forall_impl; [apply pad_sequences_all_padded |].
  intros row ->. reflexivity.
Qed.

Lemma pad_sequences_tokens (P : Z → Prop) (X : list (list Z)) (maxlen : Z)
    (value : option float) :
  P (int_of_float (default default_value value)) →
  Forall (Forall P) X →
  Forall (Forall P) (pad_sequences X maxlen value).
Proof.
  intros Hfill HX. unfold pad_sequences. apply Forall_fmap.
  eapply Forall_impl; [exact HX |]. intros s Hs. simpl.
  apply Forall_app. split; [by apply Forall_replicate | by apply Forall_drop].
Qed.

Lemma getitem_Forall {A} (P : A → Prop) (a : list A) (k : Z) (x : A) :
  Forall P a → getitem a k = Ok x → P x.
Proof.
  intros Ha Hx%getitem_elem_of. rewrite Forall_forall in Ha. by apply Ha.
Qed.

(** The batch of a leaf of the run has the embedding's input length. *)
Ltac fits_length :=
  cbn [on_batches];
  lazymatch goal with
  | |- fits_input_length _ _ =>
      eexists; split; [reflexivity | apply pad_sequences_row_lengths]
  end.

(** X6: the models only see rows of the length their embedding declares.  In
    every run, whatever the framework answers, each batch handed to [fit]
    (training and validation data), [evaluate] or [predict] consists of rows
    of exactly [input_length] = 500 tokens, and a [predict] batch has two
    rows. *)
Theorem batches_fit_the_input_length (fw : framework) :
  Forall (on_batches fits_input_length) (notebook fw []).1
  ∧ Forall (λ c, length c.2 = 2) (predict_calls (notebook fw []).1).
Proof.
  change (wp (notebook fw) []
            (λ tr _, Forall (on_batches fits_input_length) tr
                     ∧ Forall (λ c, length c.2 = 2) (predict_calls tr))).
  repeat wp_step; (split; [repeat constructor; fits_length | repeat constructor]).
Qed.

(** X7: the models only see tokens their embedding has a row for.  If both
    sets the loader returns hold tokens in [0, VOCABULARY_SIZE), every token
    of every batch handed to [fit], [evaluate] or [predict] is in
    [0, input_dim): padding only adds the sentinel 0. *)
Theorem batches_fit_the_input_dim (fw : framework)
    (X_train : list (list Z)) (y_train : list Z)
    (X_test : list (list Z)) (y_test : list Z) :
  load_data_returns fw [np_random_seed 1; imdb_load_data [("num_words", 10000%Z)]]
    = Ok ((X_train, y_train), (X_test, y_test)) →
  in_vocabulary X_train →
  in_vocabulary X_test →
  Forall (on_batches fits_input_dim) (notebook fw []).1.
Proof.
  intros Hload Htrain Htest.
  change 10000%Z with VOCABULARY_SIZE in Hload.
  change (wp (notebook fw) [] (λ tr _, Forall (on_batches fits_input_dim) tr)).
  repeat wp_step; simplify_eq; repeat constructor.
  all: eexists; (split; [reflexivity |]).
  all: apply pad_sequences_tokens; [by vm_compute | try assumption].
  all: repeat constructor.
  all: eapply getitem_Forall; [| eassumption].
  all: apply pad_sequences_tokens; [by vm_compute | assumption].
Qed.

Lemma sample_reviews_in_vocabulary : in_vocabulary sample_reviews.
Proof.
  unfold in_vocabulary, sample_reviews, VOCABULARY_SIZE.
  repeat (apply Forall_app; split); try apply Forall_replicate;
    repeat constructor; lia.
Qed.

Lemma batches_fit_the_input_dim_witness :
  Forall (on_batches fits_input_dim)
    (notebook (answering sample_dataset sample_index) []).1.
Proof.
  apply (batches_fit_the_input_dim (answering sample_dataset sample_index)
           sample_reviews (replicate (Z.to_nat 7738) 1%Z) [[4]; [5]]%Z [1; 0]%Z).
  - reflexivity.
  - apply sample_reviews_in_vocabulary.
  - unfold in_vocabulary, VOCABULARY_SIZE. repeat constructor; lia.
Defined.

(** X8: which data each call gets.  With [(X_train, y_train), (X_test,
    y_test)] what the loader returned, every [fit] call of a run trains on
    the padded [X_train] with [y_train], in batches of [BATCH_SIZE], and
    validates on the padded test set; every [evaluate] call scores that same
    padded test set.  The labels are passed on as loaded. *)
Theorem fit_validates_on_the_test_set (fw : framework)
    (X_train : list (list Z)) (y_train : list Z)
    (X_test : list (list Z)) (y_test : list Z) :
  load_data_returns fw [np_random_seed 1; imdb_load_data [("num_words", 10000%Z)]]
    = Ok ((X_train, y_train), (X_test, y_test)) →
  Forall (uses_train_and_test
            (pad_sequences X_train MAX_REVIEW_LENGTH None) y_train
            (pad_sequences X_test MAX_REVIEW_LENGTH None) y_test)
    (notebook fw []).1.
Proof.
  intros Hload. change 10000%Z with VOCABULARY_SIZE in Hload.
  change (wp (notebook fw) []
            (λ tr _, Forall (uses_train_and_test
                               (pad_sequences X_train MAX_REVIEW_LENGTH None) y_train
                               (pad_sequences X_test MAX_REVIEW_LENGTH None) y_test) tr)).
  repeat wp_step; simplify_eq; repeat constructor.
Qed.

Lemma fit_validates_on_the_test_set_witness :
  Forall (uses_train_and_test
            (pad_sequences sample_reviews MAX_REVIEW_LENGTH None)
            (replicate (Z.to_nat 7738) 1%Z)
            (pad_sequences [[4]; [5]]%Z MAX_REVIEW_LENGTH None) [1; 0]%Z)
    (notebook (answering sample_dataset sample_index) []).1.
Proof.
  apply (fit_validates_on_the_test_set (answering sample_dataset sample_index)
           sample_reviews (replicate (Z.to_nat 7738) 1%Z) [[4]; [5]]%Z [1; 0]%Z).
  reflexivity.
Defined.

(** *** The order of the calls *)

(** X9: the calls of a run are an initial part of the script's calls, and
    all of them when the run reaches the end.  So, whatever fails: the
    dataset is loaded once, first; a model is fit only after its summary and
    evaluated only after its fit, in the order fnn, rnn, lstm; the word index
    is fetched by each of the two [decode] calls; the three [predict] calls
    come last. *)
Theorem calls_follow_the_script (fw : framework) :
  calls (notebook fw []).1 `prefix_of` script_calls
  ∧ ((notebook fw []).2 = Ok tt → calls (notebook fw []).1 = script_calls).
Proof.
  change (wp (notebook fw) []
            (λ tr r, calls tr `prefix_of` script_calls
                     ∧ (r = Ok tt → calls tr = script_calls))).
  repeat wp_step; (split; [eexists; reflexivity | try discriminate]).
  reflexivity.
Qed.

(** *** How many reviews a run needs *)

(** X10: a run that reaches the end was given at least 7738 training
    reviews: cell 35 reads review 7737. *)
Theorem complete_run_has_7738_reviews (fw : framework) :
  (notebook fw []).2 = Ok tt →
  ∃ X_train y_train X_test y_test,
    load_data_returns fw [np_random_seed 1; imdb_load_data [("num_words", 10000%Z)]]
      = Ok ((X_train, y_train), (X_test, y_test))
    ∧ (7738 <= Z.of_nat (length X_train))%Z.
Proof.
  change (wp (notebook fw) []
            (λ tr r, r = Ok tt →
               ∃ X_train y_train X_test y_test,
                 load_data_returns fw
                   [np_random_seed 1; imdb_load_data [("num_words", 10000%Z)]]
                   = Ok ((X_train, y_train), (X_test, y_test))
                 ∧ (7738 <= Z.of_nat (length X_train))%Z)).
  repeat wp_step; try discriminate.
  intros _. eexists _, _, _, _. split; [eassumption |].
  match goal with
  | H : getitem _ 7737 = Ok _ |- _ =>
      apply getitem_Ok_bounds in H; rewrite pad_sequences_rows in H
  end.
  lia.
Qed.

Lemma complete_run_has_7738_reviews_witness :
  ∃ X_train y_train X_test y_test,
    load_data_returns (answering sample_dataset sample_index)
      [np_random_seed 1; imdb_load_data [("num_words", 10000%Z)]]
      = Ok ((X_train, y_train), (X_test, y_test))
    ∧ (7738 <= Z.of_nat (length X_train))%Z.
Proof.
  apply (complete_run_has_7738_reviews (answering sample_dataset sample_index)).
  vm_compute. reflexivity.
Defined.

(** X11: with fewer than five training reviews the run stops in cell 9,
    after the loader's answer and before any model is touched: in
    ValueError when there is no review at all ([np.hstack] of nothing), in
    IndexError otherwise ([X_train[0]] or [X_train[4]]). *)
Theorem short_training_set_stops_cell_9 (fw : framework)
    (X_train : list (list Z)) (y_train : list Z)
    (X_test : list (list Z)) (y_test : list Z) :
  load_data_returns fw [np_random_seed 1; imdb_load_data [("num_words", 10000%Z)]]
    = Ok ((X_train, y_train), (X_test, y_test)) →
  length X_train < 5 →
  (X_train = [] → (notebook fw []).2 = Raise ValueError)
  ∧ (X_train ≠ [] → (notebook fw []).2 = Raise IndexError)
  ∧ calls (notebook fw []).1 = [seed_call; load_data_call].
Proof.
  intros Hload Hshort. change 10000%Z with VOCABULARY_SIZE in Hload.
  change (wp (notebook fw) []
            (λ tr r, (X_train = [] → r = Raise ValueError)
                     ∧ (X_train ≠ [] → r = Raise IndexError)
                     ∧ calls tr = [seed_call; load_data_call])).
  repeat wp_step;
    match goal with
    | H : Raise _ = Ok _ |- _ => discriminate H
    | H : Ok _ = Ok _ |- _ => injection H as -> -> -> ->
    end.
  all: try match goal with
           | H : getitem ?X 4 = Ok _, Hs : length ?X < 5 |- _ =>
               apply getitem_Ok_bounds in H; lia
           end.
  all: repeat match goal with
              | H : getitem _ _ = Raise _ |- _ => apply getitem_raises in H as ->
              | H : np_hstack _ = Raise _ |- _ =>
                  apply np_hstack_raises in H as Heq; subst
              end.
  all: match goal with Hs : length ?X < 5 |- _ => destruct X end; done.
Qed.

Lemma short_training_set_stops_cell_9_witness :
  let fw := answering (([[4]; [5]]%Z, [1; 0]%Z), ([], [])) sample_index in
  ([[4]; [5]]%Z = [] → (notebook fw []).2 = Raise ValueError)
  ∧ ([[4]; [5]]%Z ≠ [] → (notebook fw []).2 = Raise IndexError)
  ∧ calls (notebook fw []).1 = [seed_call; load_data_call].
Proof.
  apply (short_training_set_stops_cell_9
           (answering (([[4]; [5]]%Z, [1; 0]%Z), ([], [])) sample_index)
           [[4]; [5]]%Z [1; 0]%Z [] []).
  - reflexivity.
  - simpl. lia.
Defined.

(** The run on the sample data reaches the end, so it prints reviews 7337
    and 449 and scores reviews 7737 and 449. *)
Lemma decoded_and_predicted_reviews_witness :
  let fw := answering sample_dataset sample_index in
  let X := pad_sequences sample_reviews MAX_REVIEW_LENGTH None in
  ∃ (index_bad index_good : list (string * Z)) (row_7337 row_449 row_7737 : list Z),
    get_word_index_returns fw (take 23 (notebook fw []).1) = Ok index_bad
    ∧ get_word_index_returns fw (take 26 (notebook fw []).1) = Ok index_good
    ∧ getitem X 7337 = Ok row_7337
    ∧ getitem X 449 = Ok row_449
    ∧ getitem X 7737 = Ok row_7737
    ∧ printed_texts (notebook fw []).1 =
        [join " " ((λ i, dict_get (reverse_index index_bad) (i - 3)%Z "#") <$> row_7337);
         str_mul newline 3;
         join " " ((λ i, dict_get (reverse_index index_good) (i - 3)%Z "#") <$> row_449)]
    ∧ predict_calls (notebook fw []).1 =
        (λ m, (m, [row_7737; row_449])) <$> [model_fnn; model_rnn; model_lstm].
Proof.
  apply (decoded_and_predicted_reviews (answering sample_dataset sample_index)
           sample_reviews (replicate (Z.to_nat 7738) 1%Z) [[4]; [5]]%Z [1; 0]%Z).
  - reflexivity.
  - vm_compute. reflexivity.
Defined.

(** *** What cells 9 and 11 print *)

Lemma np_unique_sorted (a : list Z) : Sorted Z.le (np_unique a) ∧ NoDup (np_unique a).
Proof.
  unfold np_unique. split.
  - apply Sorted_merge_sort. intros x y. lia.
  - rewrite merge_sort_Permutation. apply NoDup_remove_dups.
Qed.

(** Which of the events of a trace a given printed line is. *)
Ltac find_print H :=
  repeat (apply elem_of_cons in H as [H | H]; [try discriminate H |]);
  try (by apply elem_of_nil in H).

(** X12: the line cell 11 prints after padding always reads 500 500,
    whatever the reviews: the two numbers are the lengths of the first and
    fifth row of the padded training set. *)
Theorem padded_lengths_print_500 (fw : framework) (first fifth : Z) :
  print [PStr "Length of first and fifth review after padding"; PInt first; PInt fifth]
    ∈ (notebook fw []).1 →
  first = 500%Z ∧ fifth = 500%Z.
Proof.
  change (wp (notebook fw) []
            (λ tr _,
               print [PStr "Length of first and fifth review after padding";
                      PInt first; PInt fifth] ∈ tr →
               first = 500%Z ∧ fifth = 500%Z)).
  repeat wp_step; intros Hin; find_print Hin.
  all: injection Hin as -> ->.
  all: split; (eapply (getitem_Forall (λ row, Z.of_nat (length row) = MAX_REVIEW_LENGTH));
               [apply pad_sequences_row_lengths | eassumption]).
Qed.

Lemma padded_lengths_print_500_witness :
  Z.of_nat (length (replicate 500 0%Z)) = 500%Z
  ∧ Z.of_nat (length (replicate 500 0%Z)) = 500%Z.
Proof.
  apply (padded_lengths_print_500
           (answering ((replicate 5 [], replicate 5 1%Z), ([], [])) sample_index)).
  apply (list_elem_of_lookup_2 _ 6). reflexivity.
Defined.

(** X13: the categories cell 9 prints are the labels of the training set,
    each once, in increasing order. *)
Theorem printed_categories_are_the_training_labels (fw : framework)
    (X_train : list (list Z)) (y_train : list Z)
    (X_test : list (list Z)) (y_test : list Z) (categories : list Z) :
  load_data_returns fw [np_random_seed 1; imdb_load_data [("num_words", 10000%Z)]]
    = Ok ((X_train, y_train), (X_test, y_test)) →
  print [PStr "Categories:"; PInts categories] ∈ (notebook fw []).1 →
  Sorted Z.le categories ∧ NoDup categories ∧ ∀ l, l ∈ categories ↔ l ∈ y_train.
Proof.
  intros Hload. change 10000%Z with VOCABULARY_SIZE in Hload.
  change (wp (notebook fw) []
            (λ tr _,
               print [PStr "Categories:"; PInts categories] ∈ tr →
               Sorted Z.le categories ∧ NoDup categories
               ∧ ∀ l, l ∈ categories ↔ l ∈ y_train)).
  repeat wp_step; simplify_eq; intros Hin; find_print Hin.
  all: injection Hin as ->.
  all: split; [apply np_unique_sorted |]; split; [apply np_unique_sorted |].
  all: intros l; apply np_unique_elem_of.
Qed.

Lemma printed_categories_are_the_training_labels_witness :
  Sorted Z.le [0; 1]%Z ∧ NoDup [0; 1]%Z
  ∧ ∀ l, l ∈ [0; 1]%Z ↔ l ∈ [1; 0; 0; 1; 1]%Z.
Proof.
  apply (printed_categories_are_the_training_labels
           (answering ((replicate 5 [4%Z], [1; 0; 0; 1; 1]%Z), ([], [])) sample_index)
           (replicate 5 [4%Z]) [1; 0; 0; 1; 1]%Z [] []).
  - reflexivity.
  - apply (list_elem_of_lookup_2 _ 2). reflexivity.
Defined.

(** *** Rows and labels *)

(** X14: padding keeps one row per review, so rows and labels stay aligned.
    If the loader returns as many labels as reviews, for the training and
    for the test set, every [fit] and [evaluate] call of a run gets as many
    labels as rows. *)
Theorem rows_and_labels_stay_aligned (fw : framework)
    (X_train : list (list Z)) (y_train : list Z)
    (X_test : list (list Z)) (y_test : list Z) :
  load_data_returns fw [np_random_seed 1; imdb_load_data [("num_words", 10000%Z)]]
    = Ok ((X_train, y_train), (X_test, y_test)) →
  length X_train = length y_train →
  length X_test = length y_test →
  Forall rows_match_labels (notebook fw []).1.
Proof.
  intros Hload Htrain Htest. change 10000%Z with VOCABULARY_SIZE in Hload.
  change (wp (notebook fw) [] (λ tr _, Forall rows_match_labels tr)).
  repeat wp_step; simplify_eq; repeat constructor.
  all: cbn [rows_match_labels]; by rewrite pad_sequences_rows.
Qed.

Lemma rows_and_labels_stay_aligned_witness :
  Forall rows_match_labels (notebook (answering sample_dataset sample_index) []).1.
Proof.
  apply (rows_and_labels_stay_aligned (answering sample_dataset sample_index)
           sample_reviews (replicate (Z.to_nat 7738) 1%Z) [[4]; [5]]%Z [1; 0]%Z).
  - reflexivity.
  - vm_compute. reflexivity.
  - reflexivity.
Defined.
